(** * cdk_workshop/pipeline_stack.py: the gated delivery pipeline

    A shallow embedding of [PipelineStack.__init__] and
    [PipelineStack.create_code_quality_steps].  The Python code builds CDK
    objects; here every object that the code shares by reference (the
    source binding, the build environment, the pipeline, the deployment
    stage) lives in an explicit heap and is named by its location, while
    steps are plain records holding those locations.  Context values are
    JSON-like Python values; subscripting and [or] follow Python. *)

From Stdlib Require Import ZArith Floats.
From stdpp Require Import base option gmap strings list.

#[local] Set Warnings "-register-all".
#[local] Open Scope string_scope.
#[local] Open Scope list_scope.

(** ** Python values read from the CDK context (cdk.json / [-c key=value]) *)

Inductive value :=
| VNone
| VBool (b : bool)
| VInt (z : Z)
| VFloat (f : float)
| VStr (s : string)
| VList (l : list value)
| VDict (d : gmap string value).

(** Python truth value testing, as used by [x or y]. *)
Definition truthy (v : value) : bool :=
  match v with
  | VNone => false
  | VBool b => b
  | VInt z => negb (Z.eqb z 0)
  | VFloat f => negb (PrimFloat.eqb f 0%float)
  | VStr s => negb (String.eqb s "")
  | VList l => match l with [] => false | _ :: _ => true end
  | VDict d => negb (bool_decide (d = ∅))
  end.

(** [a or b]: [a] when it is truthy, else [b]. *)
Definition py_or (a b : value) : value := if truthy a then a else b.

(** ** Exceptions *)

Inductive exn :=
| TypeError (what : string)      (* wrong kind of object for the operation *)
| KeyError (key : string)        (* dict has no such key *)
| AttributeError (attr : string) (* attribute of self not yet assigned *)
| RuntimeError (what : string).  (* the construct tree refuses a duplicate id *)

Inductive outcome (A : Type) :=
| Returned (a : A)
| Raised (e : exn).
Arguments Returned {A} a.
Arguments Raised {A} e.

(** [v[k]] for a string key [k]. Only a dict can be subscripted by a string. *)
Definition subscript (v : value) (k : string) : outcome value :=
  match v with
  | VDict d =>
      match d !! k with
      | Some x => Returned x
      | None => Raised (KeyError k)
      end
  | VNone => Raised (TypeError "'NoneType' object is not subscriptable")
  | VBool _ => Raised (TypeError "'bool' object is not subscriptable")
  | VInt _ => Raised (TypeError "'int' object is not subscriptable")
  | VFloat _ => Raised (TypeError "'float' object is not subscriptable")
  | VStr _ => Raised (TypeError "string indices must be integers")
  | VList _ => Raised (TypeError "list indices must be integers or slices, not str")
  end.

(** ** CDK descriptors *)

(** Object identities. *)
Abbreviation loc := nat (only parsing).

Inductive SecretValue :=
| secrets_manager (secret_id : string).

(** [CodePipelineSource.git_hub(repo_string, branch, authentication)]; the
    two coordinates are whatever the context holds. *)
Record CodePipelineSource := git_hub {
  repo_string : value;
  branch : value;
  authentication : SecretValue
}.

Inductive LinuxBuildImage :=
| STANDARD_5_0 | STANDARD_6_0 | STANDARD_7_0 | AMAZON_LINUX_2_5.

Inductive ComputeType :=
| SMALL | MEDIUM | LARGE | X2_LARGE.

Record BuildEnvironment := {
  build_image : LinuxBuildImage;
  compute_type : ComputeType;
  privileged : bool
}.

Module ShellStep.
Record t := make {
  id : string;
  input : loc;
  env : gmap string value;
  install_commands : list string;
  commands : list string
}.
End ShellStep.

Module CodeBuildStep.
Record t := make {
  id : string;
  input : loc;
  build_environment : loc;
  project_name : string;
  install_commands : list string;
  commands : list string
}.
End CodeBuildStep.

(** Modelled from the spec: [cdk_workshop.deploy_stage.DeployStage], whose
    source is not part of this file. The spec gives its contract as
    "constructed with (scope, identifier, environment_type)" and leaves its
    internals out, so a stage is the arguments of its constructor call; the
    scope is always [self]. *)
Record DeployStage := {
  construct_id : string;
  environment_type : string
}.

(** A [CodePipeline]: its name, its synth step, and the stages added so far,
    each with the steps passed as [pre]. *)
Record CodePipeline := {
  pipeline_name : value;
  synth : ShellStep.t;
  stages : list (loc * list CodeBuildStep.t)
}.

Inductive object :=
| OSource (s : CodePipelineSource)
| OEnvironment (e : BuildEnvironment)
| OPipeline (p : CodePipeline)
| OStage (d : DeployStage).

(** ** The stack under construction and the interpreter state *)

(** [self]: the two attributes the code assigns, and the constructs
    registered under [self] in the construct tree, oldest first. *)
Record stack := {
  context : option value;
  source_stage : option loc;
  children : list (string * loc)
}.

Record world := {
  next_loc : loc;
  heap : gmap loc object;
  self : stack
}.

Definition M (A : Type) : Type := world -> outcome A * world.

#[export] Instance M_ret : MRet M := fun A a w => (Returned a, w).
#[export] Instance M_bind : MBind M := fun A B f m w =>
  match m w with
  | (Returned a, w') => f a w'
  | (Raised e, w') => (Raised e, w')
  end.

Definition raise {A} (e : exn) : M A := fun w => (Raised e, w).

Definition lift {A} (o : outcome A) : M A := fun w => (o, w).

Definition get_self : M stack := fun w => (Returned (self w), w).

Definition set_self (s : stack) : M unit := fun w =>
  (Returned tt, {| next_loc := next_loc w; heap := heap w; self := s |}).

(** Object creation: a fresh identity for the new object. *)
Definition alloc (o : object) : M loc := fun w =>
  (Returned (next_loc w),
   {| next_loc := S (next_loc w);
      heap := <[next_loc w := o]> (heap w);
      self := self w |}).

Definition load (l : loc) : M object := fun w =>
  match heap w !! l with
  | Some o => (Returned o, w)
  | None => (Raised (RuntimeError "dangling reference"), w)
  end.

Definition store (l : loc) (o : object) : M unit := fun w =>
  (Returned tt,
   {| next_loc := next_loc w; heap := <[l := o]> (heap w); self := self w |}).

(** A construct with a scope registers itself under an id that must be new
    among the scope's children. *)
Definition add_child (id : string) (l : loc) : M unit :=
  s ← get_self;
  if bool_decide (id ∈ (children s).*1)
  then raise (RuntimeError "There is already a Construct with this name")
  else set_self {| context := context s;
                   source_stage := source_stage s;
                   children := children s ++ [(id, l)] |}.

(** [self.context] and [self.source_stage], read after assignment. *)
Definition self_context : M value :=
  s ← get_self;
  match context s with
  | Some v => mret v
  | None => raise (AttributeError "context")
  end.

Definition self_source_stage : M loc :=
  s ← get_self;
  match source_stage s with
  | Some l => mret l
  | None => raise (AttributeError "source_stage")
  end.

Definition set_context (v : value) : M unit :=
  s ← get_self;
  set_self {| context := Some v;
              source_stage := source_stage s;
              children := children s |}.

Definition set_source_stage (l : loc) : M unit :=
  s ← get_self;
  set_self {| context := context s;
              source_stage := Some l;
              children := children s |}.

(** ** The code *)

(** [self.node.try_get_context(key)]: the value stored under [key] in the
    context, [None] when there is none. *)
Definition try_get_context (ctx : gmap string value) (key : string) : value :=
  default VNone (ctx !! key).

(** The method is declared with [key: str]; any other argument is refused
    when the call is made. *)
Definition as_key (v : value) : outcome string :=
  match v with
  | VStr k => Returned k
  | _ => Raised (TypeError "type of argument key must be str")
  end.

Module PipelineStack.

(** [super().__init__(scope, construct_id, **kwargs)]: [self] starts as a
    stack with no children and no attribute of this class assigned. *)
Definition super_init : M unit :=
  set_self {| context := None; source_stage := None; children := [] |}.

(** Lines 66-162. *)
Definition create_code_quality_steps : M (list CodeBuildStep.t) :=
  let steps : list CodeBuildStep.t := [] in
  let install_steps :=
    [ "npm install -g aws-cdk";
      "python3 -m venv .env";
      "chmod +x .env/bin/activate";
      ". .env/bin/activate";
      "pip3 install -r requirements.txt";
      "pip3 install -r requirements-dev.txt" ] in
  environment ← alloc (OEnvironment {| build_image := STANDARD_7_0;
                                       compute_type := SMALL;
                                       privileged := true |});
  src ← self_source_stage;
  let steps := steps ++
    [ CodeBuildStep.make "GitSecrets" src environment
        "cdk-pipelines-git-secrets"
        [ "SECRETS_FOLDER=git-secrets";
          "mkdir $SECRETS_FOLDER";
          "git clone --quiet https://github.com/awslabs/git-secrets.git $SECRETS_FOLDER";
          "cd $SECRETS_FOLDER";
          "make install";
          "cd .. && rm -rf $SECRETS_FOLDER" ]
        [ "git secrets --register-aws";
          "git secrets --scan";
          "echo No vulnerabilities detected. Have a really nice day!" ] ] in
  src ← self_source_stage;
  let steps := steps ++
    [ CodeBuildStep.make "Linter" src environment
        "cdk-pipelines-linter"
        install_steps
        [ "python3 -m pylint cdk_workshop || true";
          "python3 -m pylint tests || true";
          "python3 -m pylint app.py || true" ] ] in
  src ← self_source_stage;
  let steps := steps ++
    [ CodeBuildStep.make "UnitTests" src environment
        "cdk-pipelines-unit-tests"
        install_steps
        [ "python3 -m pytest" ] ] in
  src ← self_source_stage;
  let steps := steps ++
    [ CodeBuildStep.make "CfnNag" src environment
        "cdk-pipelines-cfn-nag"
        (install_steps ++ [ "gem install cfn-nag" ])
        [ "ACCOUNT=$(aws sts get-caller-identity | jq -r '.Account')";
          "STACK_NAME=cdk-pipeline-scan";
          "cdk synth $STACK_NAME -c account=$ACCOUNT -c environmentType=$ENV_TYPE > template.yaml";
          "cfn_nag_scan --input-path template.yaml" ] ] in
  src ← self_source_stage;
  let steps := steps ++
    [ CodeBuildStep.make "DependencyAudit" src environment
        "cdk-pipelines-audit"
        install_steps
        [ "safety check -r requirements.txt";
          "safety check -r requirements-dev.txt" ] ] in
  mret steps.

(** Line 25: the override, or "qa". *)
Definition resolve_environment_type (ctx : gmap string value) : value :=
  py_or (try_get_context ctx "environmentType") (VStr "qa").

(** Lines 25-26, the context resolver: the environment tag and the
    settings bundle stored under it. *)
Definition resolve_context (ctx : gmap string value) : outcome (value * value) :=
  let environment_type := resolve_environment_type ctx in
  match as_key environment_type with
  | Raised e => Raised e
  | Returned key => Returned (environment_type, try_get_context ctx key)
  end.

(** Lines 38-53, the synth step. *)
Definition synth_step (src : loc) (environment_type : value) : ShellStep.t :=
  ShellStep.make "Synth" src
    {[ "ENV_TYPE" := environment_type ]}
    [ "npm install -g aws-cdk";
      "pip3 install -r requirements.txt";
      "pip3 install -r requirements-dev.txt";
      "ACCOUNT=$(aws sts get-caller-identity | jq -r .Account)" ]
    [ "cdk synth -c account=$ACCOUNT -c environmentType=$ENV_TYPE" ].

(** [pipeline.add_stage(stage, pre=steps)]. *)
Definition add_stage (pipeline stage : loc) (pre : list CodeBuildStep.t) : M unit :=
  o ← load pipeline;
  match o with
  | OPipeline p =>
      store pipeline (OPipeline {| pipeline_name := pipeline_name p;
                                   synth := synth p;
                                   stages := stages p ++ [(stage, pre)] |})
  | _ => raise (AttributeError "add_stage")
  end.

(** Lines 22-64. *)
Definition __init__ (ctx : gmap string value) : M unit :=
  super_init;;
  '(environment_type, bundle) ← lift (resolve_context ctx);
  set_context bundle;;
  (* GitHub as source *)
  c ← self_context;
  repository ← lift (subscript c "repository");
  name ← lift (subscript repository "name");
  c ← self_context;
  repository ← lift (subscript c "repository");
  branch ← lift (subscript repository "branch");
  src ← alloc (OSource (git_hub name branch (secrets_manager "github-token")));
  set_source_stage src;;
  c ← self_context;
  pipeline_settings ← lift (subscript c "pipeline");
  name ← lift (subscript pipeline_settings "name");
  src ← self_source_stage;
  let synth := synth_step src environment_type in
  pipeline ← alloc (OPipeline {| pipeline_name := name;
                                 synth := synth;
                                 stages := [] |});
  add_child "Pipeline" pipeline;;
  quality_steps ← create_code_quality_steps;
  stage ← alloc (OStage {| construct_id := "QA"; environment_type := "qa" |});
  add_child "QA" stage;;
  add_stage pipeline stage quality_steps.

End PipelineStack.

Import PipelineStack.

(** ** Reading a finished world *)

Definition source_at (h : gmap loc object) (l : loc) : option CodePipelineSource :=
  match h !! l with Some (OSource s) => Some s | _ => None end.

Definition environment_at (h : gmap loc object) (l : loc) : option BuildEnvironment :=
  match h !! l with Some (OEnvironment e) => Some e | _ => None end.

Definition pipeline_at (h : gmap loc object) (l : loc) : option CodePipeline :=
  match h !! l with Some (OPipeline p) => Some p | _ => None end.

Definition stage_at (h : gmap loc object) (l : loc) : option DeployStage :=
  match h !! l with Some (OStage d) => Some d | _ => None end.

(** The pipelines, and the deployment stages, registered under [self]. *)
Definition registered_pipelines (w : world) : list CodePipeline :=
  omap (fun c => pipeline_at (heap w) c.2) (children (self w)).

Definition registered_stages (w : world) : list DeployStage :=
  omap (fun c => stage_at (heap w) c.2) (children (self w)).

(** The order in which the orchestration platform (CDK Pipelines, not this
    repository) runs what a [CodePipeline] declares: the synth step, then
    for each stage its [pre] steps in list order followed by the deployment
    of the stage. *)
Inductive action :=
| RunSynth (s : ShellStep.t)
| RunGate (s : CodeBuildStep.t)
| Deploy (stage : loc).

Definition schedule (p : CodePipeline) : list action :=
  RunSynth (synth p) ::
  flat_map (fun st => map RunGate st.2 ++ [Deploy st.1]) (stages p).

(** The commands a [ShellStep] runs, in order: its install commands, then
    its commands. *)
Definition script (s : ShellStep.t) : list string :=
  ShellStep.install_commands s ++ ShellStep.commands s.

(** ** Shell command strings *)

Definition ends_with (suffix s : string) : bool :=
  (String.length suffix <=? String.length s)%nat &&
  String.eqb
    (String.substring (String.length s - String.length suffix)
                      (String.length suffix) s)
    suffix.

Definition contains (needle s : string) : bool :=
  match String.index 0 needle s with Some _ => true | None => false end.

(** A command whose failure is swallowed by the shell: [cmd || true] exits
    with status 0 whatever [cmd] does. *)
Definition exit_code_tolerant (cmd : string) : bool := ends_with " || true" cmd.

(** ** Structure of what was built, references followed *)

Module View.

Record shell_step := {
  id : string;
  input : option CodePipelineSource;
  env : gmap string value;
  install_commands : list string;
  commands : list string
}.

Record code_build_step := {
  cb_id : string;
  cb_input : option CodePipelineSource;
  cb_build_environment : option BuildEnvironment;
  cb_project_name : string;
  cb_install_commands : list string;
  cb_commands : list string
}.

Record pipeline := {
  name : value;
  synth_step : shell_step;
  staged : list (option DeployStage * list code_build_step)
}.

Inductive construct :=
| Pipeline (p : pipeline)
| Stage (d : DeployStage)
| Other.

Record stack := {
  settings : option value;
  source : option (option CodePipelineSource);
  constructs : list (string * construct)
}.

Definition of_shell_step (h : gmap loc object) (s : ShellStep.t) : shell_step :=
  {| id := ShellStep.id s;
     input := source_at h (ShellStep.input s);
     env := ShellStep.env s;
     install_commands := ShellStep.install_commands s;
     commands := ShellStep.commands s |}.

Definition of_code_build_step (h : gmap loc object) (s : CodeBuildStep.t)
  : code_build_step :=
  {| cb_id := CodeBuildStep.id s;
     cb_input := source_at h (CodeBuildStep.input s);
     cb_build_environment := environment_at h (CodeBuildStep.build_environment s);
     cb_project_name := CodeBuildStep.project_name s;
     cb_install_commands := CodeBuildStep.install_commands s;
     cb_commands := CodeBuildStep.commands s |}.

Definition of_pipeline (h : gmap loc object) (p : CodePipeline) : pipeline :=
  {| name := pipeline_name p;
     synth_step := of_shell_step h (synth p);
     staged := map (fun st => (stage_at h st.1, map (of_code_build_step h) st.2))
                   (stages p) |}.

Definition of_construct (h : gmap loc object) (l : loc) : construct :=
  match h !! l with
  | Some (OPipeline p) => Pipeline (of_pipeline h p)
  | Some (OStage d) => Stage d
  | _ => Other
  end.

(** Everything observable about [self], with no location left in it. *)
Definition of_world (w : world) : stack :=
  {| settings := context (self w);
     source := source_at (heap w) <$> source_stage (self w);
     constructs := map (fun c => (c.1, of_construct (heap w) c.2))
                       (children (self w)) |}.

End View.

(** ** What a run leaves behind *)

(** The five gate steps as [create_code_quality_steps] builds them for a
    source at [src] when the next free location is [environment]. *)
Definition gates (src environment : loc) : list CodeBuildStep.t :=
  match create_code_quality_steps
          {| next_loc := environment;
             heap := ∅;
             self := {| context := None;
                        source_stage := Some src;
                        children := [] |} |}
  with
  | (Returned steps, _) => steps
  | (Raised _, _) => []
  end.

Definition the_environment : BuildEnvironment :=
  {| build_image := STANDARD_7_0; compute_type := SMALL; privileged := true |}.

(** The world after a run of [__init__] that returns. *)
Definition built (w : world) (tag bundle name branch pname : value) : world :=
  let n := next_loc w in
  {| next_loc := 4 + n;
     heap :=
       <[1 + n := OPipeline {| pipeline_name := pname;
                               synth := synth_step n tag;
                               stages := [(3 + n, gates n (2 + n))] |}]>
       (<[3 + n := OStage {| construct_id := "QA"; environment_type := "qa" |}]>
       (<[2 + n := OEnvironment the_environment]>
       (<[1 + n := OPipeline {| pipeline_name := pname;
                                synth := synth_step n tag;
                                stages := [] |}]>
       (<[n := OSource (git_hub name branch (secrets_manager "github-token"))]>
          (heap w)))));
     self := {| context := Some bundle;
                source_stage := Some n;
                children := [("Pipeline", 1 + n); ("QA", 3 + n)] |} |}.

(** What [__init__] reads from the bundle for the source binding, in the
    order it reads it: [repository.name], then [repository.branch]. *)
Definition source_settings (bundle : value) : outcome (value * value) :=
  match subscript bundle "repository" with
  | Raised e => Raised e
  | Returned repository =>
      match subscript repository "name" with
      | Raised e => Raised e
      | Returned name =>
          match subscript repository "branch" with
          | Raised e => Raised e
          | Returned branch => Returned (name, branch)
          end
      end
  end.

(** What it reads next, for the pipeline: [pipeline.name]. *)
Definition pipeline_settings (bundle : value) : outcome value :=
  match subscript bundle "pipeline" with
  | Raised e => Raised e
  | Returned pipeline => subscript pipeline "name"
  end.

(** The world after a run that raises while resolving the context, ... *)
Definition unresolved (w : world) : world :=
  {| next_loc := next_loc w;
     heap := heap w;
     self := {| context := None; source_stage := None; children := [] |} |}.

(** ... while reading the source settings, ... *)
Definition unbound (w : world) (bundle : value) : world :=
  {| next_loc := next_loc w;
     heap := heap w;
     self := {| context := Some bundle; source_stage := None; children := [] |} |}.

(** ... and while reading the pipeline name, the source being bound. *)
Definition bound (w : world) (bundle name branch : value) : world :=
  let n := next_loc w in
  {| next_loc := 1 + n;
     heap := <[n := OSource (git_hub name branch (secrets_manager "github-token"))]>
               (heap w);
     self := {| context := Some bundle; source_stage := Some n; children := [] |} |}.

(** The four ways a run of [__init__] on [ctx] from [w] can end. *)
Inductive run_of (ctx : gmap string value) (w : world)
  : outcome unit * world → Prop :=
| run_unresolved e :
    resolve_context ctx = Raised e →
    run_of ctx w (Raised e, unresolved w)
| run_unbound tag bundle e :
    resolve_context ctx = Returned (VStr tag, bundle) →
    source_settings bundle = Raised e →
    run_of ctx w (Raised e, unbound w bundle)
| run_bound tag bundle name branch e :
    resolve_context ctx = Returned (VStr tag, bundle) →
    source_settings bundle = Returned (name, branch) →
    pipeline_settings bundle = Raised e →
    run_of ctx w (Raised e, bound w bundle name branch)
| run_built tag bundle name branch pname :
    resolve_context ctx = Returned (VStr tag, bundle) →
    source_settings bundle = Returned (name, branch) →
    pipeline_settings bundle = Returned pname →
    run_of ctx w (Returned tt, built w (VStr tag) bundle name branch pname).

(** The name under which an action shows in a pipeline run. *)
Definition label (h : gmap loc object) (a : action) : string :=
  match a with
  | RunSynth s => ShellStep.id s
  | RunGate s => CodeBuildStep.id s
  | Deploy l => match stage_at h l with
                | Some d => construct_id d
                | None => ""
                end
  end.

(** A gate step's commands are tolerant exactly when the step is the linter. *)
Definition tolerant_iff_linter (s : CodeBuildStep.t) : bool :=
  forallb (fun c => Bool.eqb (exit_code_tolerant c)
                             (String.eqb (CodeBuildStep.id s) "Linter"))
          (CodeBuildStep.commands s).


Definition at_path (v : value) (path : list string) : outcome value :=
  foldl (fun acc k => match acc with
                      | Returned x => subscript x k
                      | Raised e => Raised e
                      end)
        (Returned v) path.


(** ** Sample contexts and a start world *)

Definition empty_world : world :=
  {| next_loc := 0;
     heap := ∅;
     self := {| context := None; source_stage := None; children := [] |} |}.

Definition acme_bundle : value :=
  VDict {[ "repository" := VDict {[ "name" := VStr "acme/app";
                                     "branch" := VStr "main" ]};
           "pipeline" := VDict {[ "name" := VStr "acme-qa" ]} ]}.

(** [{"qa": {"repository": {"name": "acme/app", "branch": "main"},
            "pipeline": {"name": "acme-qa"}}}] *)
Definition acme_context : gmap string value := {[ "qa" := acme_bundle ]}.

Definition prod_bundle : value :=
  VDict {[ "repository" := VDict {[ "name" := VStr "acme/app";
                                     "branch" := VStr "release" ]};
           "pipeline" := VDict {[ "name" := VStr "acme-prod" ]} ]}.

(** [{"environmentType": "prod", "prod": {...}}] *)
Definition prod_context : gmap string value :=
  {[ "environmentType" := VStr "prod"; "prod" := prod_bundle ]}.

(** [{"qa": {}}] *)
Definition bare_context : gmap string value := {[ "qa" := VDict ∅ ]}.

(** [{"environmentType": "", "qa": {...}}] *)
Definition blank_override_context : gmap string value :=
  {[ "environmentType" := VStr ""; "qa" := acme_bundle ]}.

(** A world in which [self.source_stage] is bound to a source at 0. *)
Definition sourced_world : world :=
  {| next_loc := 1;
     heap := {[ 0 := OSource (git_hub (VStr "acme/app") (VStr "main")
                                      (secrets_manager "github-token")) ]};
     self := {| context := Some acme_bundle;
                source_stage := Some 0;
                children := [] |} |}.

(** [{"qa": {"repository": {"branch": "main"}}}] *)
Definition nameless_context : gmap string value :=
  {[ "qa" := VDict {[ "repository" := VDict {[ "branch" := VStr "main" ]} ]} ]}.



(** * Properties *)

Ltac unfold_run :=
  unfold __init__, add_stage, load, store, add_child, alloc, lift, raise,
    super_init, set_context, set_source_stage, self_context,
    self_source_stage, set_self, get_self, mbind, M_bind, mret, M_ret.

Ltac heap_lookup :=
  repeat first [ rewrite lookup_insert_eq
               | rewrite lookup_insert_ne by lia ].

Section Runs.

Variable ctx : gmap string value.
Variable w : world.

Lemma resolve_context_returned tag bundle :
  resolve_context ctx = Returned (tag, bundle) →
  ∃ key, tag = VStr key ∧ bundle = try_get_context ctx key ∧
         resolve_environment_type ctx = VStr key.
Proof.
  unfold resolve_context.
  destruct (resolve_environment_type ctx) as [| | | |key| |]; simpl;
    try discriminate.
  intros [= <- <-]. eauto.
Qed.

Lemma resolve_context_tagged key :
  resolve_environment_type ctx = VStr key →
  resolve_context ctx = Returned (VStr key, try_get_context ctx key).
Proof. intros H. unfold resolve_context. rewrite H. reflexivity. Qed.

Lemma create_code_quality_steps_run src :
  source_stage (self w) = Some src →
  create_code_quality_steps w =
    (Returned (gates src (next_loc w)),
     {| next_loc := S (next_loc w);
        heap := <[next_loc w := OEnvironment the_environment]> (heap w);
        self := self w |}).
Proof.
  intros Hsrc. unfold create_code_quality_steps, gates. unfold_run. simpl.
  repeat (rewrite Hsrc; simpl). reflexivity.
Qed.

Lemma init_raise_resolve e :
  resolve_context ctx = Raised e →
  __init__ ctx w = (Raised e, unresolved w).
Proof. intros Hr. unfold_run. simpl. rewrite Hr. reflexivity. Qed.

Lemma init_raise_source tag bundle e :
  resolve_context ctx = Returned (tag, bundle) →
  source_settings bundle = Raised e →
  __init__ ctx w = (Raised e, unbound w bundle).
Proof.
  intros Hr Hs. unfold source_settings in Hs. unfold_run. simpl.
  rewrite Hr; simpl.
  destruct (subscript bundle "repository") as [repository|]; simpl;
    [|by injection Hs as <-].
  destruct (subscript repository "name"); simpl; [|by injection Hs as <-].
  destruct (subscript repository "branch"); simpl; [done|by injection Hs as <-].
Qed.

Lemma init_raise_pipeline tag bundle name branch e :
  resolve_context ctx = Returned (tag, bundle) →
  source_settings bundle = Returned (name, branch) →
  pipeline_settings bundle = Raised e →
  __init__ ctx w = (Raised e, bound w bundle name branch).
Proof.
  intros Hr Hs Hp. unfold source_settings in Hs. unfold pipeline_settings in Hp.
  unfold_run. simpl. rewrite Hr; simpl.
  destruct (subscript bundle "repository") as [repository|]; simpl; [|done].
  destruct (subscript repository "name"); simpl; [|done].
  destruct (subscript repository "branch"); simpl; [|done].
  injection Hs as -> ->.
  destruct (subscript bundle "pipeline") as [pipeline|]; simpl;
    [|by injection Hp as <-].
  rewrite Hp. reflexivity.
Qed.

Lemma init_run tag bundle name branch pname :
  resolve_context ctx = Returned (tag, bundle) →
  source_settings bundle = Returned (name, branch) →
  pipeline_settings bundle = Returned pname →
  __init__ ctx w = (Returned tt, built w tag bundle name branch pname).
Proof.
  intros Hr Hs Hp. unfold source_settings in Hs. unfold pipeline_settings in Hp.
  unfold built. unfold_run. simpl. rewrite Hr; simpl.
  destruct (subscript bundle "repository") as [repository|]; simpl; [|done].
  destruct (subscript repository "name"); simpl; [|done].
  destruct (subscript repository "branch"); simpl; [|done].
  injection Hs as -> ->.
  destruct (subscript bundle "pipeline") as [pipeline|]; simpl; [|done].
  rewrite Hp; simpl. heap_lookup. reflexivity.
Qed.

Lemma init_cases : run_of ctx w (__init__ ctx w).
Proof.
  destruct (resolve_context ctx) as [[tag bundle]|e] eqn:Hr.
  - destruct (resolve_context_returned _ _ Hr) as (key & -> & _ & _).
    destruct (source_settings bundle) as [[name branch]|e] eqn:Hs.
    + destruct (pipeline_settings bundle) as [pname|e] eqn:Hp.
      * rewrite (init_run _ _ _ _ _ Hr Hs Hp). by eapply run_built.
      * rewrite (init_raise_pipeline _ _ _ _ _ Hr Hs Hp). by eapply run_bound.
    + rewrite (init_raise_source _ _ _ Hr Hs). by eapply run_unbound.
  - rewrite (init_raise_resolve _ Hr). by apply run_unresolved.
Qed.

(** A run that returns went through every step. *)
Lemma init_returned w' :
  __init__ ctx w = (Returned tt, w') →
  ∃ tag bundle name branch pname,
    resolve_context ctx = Returned (VStr tag, bundle) ∧
    source_settings bundle = Returned (name, branch) ∧
    pipeline_settings bundle = Returned pname ∧
    w' = built w (VStr tag) bundle name branch pname.
Proof.
  intros H. pose proof init_cases as Hc. rewrite H in Hc.
  inversion Hc; subst. eauto 10.
Qed.

(** A run that raises leaves nothing registered under [self]. *)
Lemma init_raised e w' :
  __init__ ctx w = (Raised e, w') → children (self w') = [].
Proof.
  intros H. pose proof init_cases as Hc. rewrite H in Hc.
  inversion Hc; subst; reflexivity.
Qed.

End Runs.

(** What [built] holds at the locations the run allocated. *)
Section Built.

Variable w : world.
Variables tag bundle name branch pname : value.

Let w' := built w tag bundle name branch pname.

Lemma built_pipelines :
  registered_pipelines w' =
    [ {| pipeline_name := pname;
         synth := synth_step (next_loc w) tag;
         stages := [(3 + next_loc w, gates (next_loc w) (2 + next_loc w))] |} ].
Proof.
  unfold registered_pipelines, pipeline_at, w', built. simpl.
  heap_lookup. reflexivity.
Qed.

Lemma built_stages :
  registered_stages w' = [ {| construct_id := "QA"; environment_type := "qa" |} ].
Proof.
  unfold registered_stages, stage_at, w', built. simpl.
  heap_lookup. reflexivity.
Qed.

Lemma built_stage_at :
  stage_at (heap w') (3 + next_loc w) =
    Some {| construct_id := "QA"; environment_type := "qa" |}.
Proof. unfold stage_at, w', built. simpl. heap_lookup. reflexivity. Qed.

Lemma built_source_at :
  heap w' !! next_loc w =
    Some (OSource (git_hub name branch (secrets_manager "github-token"))).
Proof. unfold w', built. simpl. heap_lookup. reflexivity. Qed.

Lemma built_environment_at :
  heap w' !! (2 + next_loc w) = Some (OEnvironment the_environment).
Proof. unfold w', built. simpl. heap_lookup. reflexivity. Qed.

End Built.

(** ** The quality gates *)

(** C2. Every call of [create_code_quality_steps] on a stack whose
    [source_stage] is bound returns exactly five steps, named GitSecrets,
    Linter, UnitTests, CfnNag, DependencyAudit in this order, and the input
    of each of them is the very object [self.source_stage] refers to. *)
Theorem create_code_quality_steps_five (w : world) (src : loc) :
  source_stage (self w) = Some src →
  ∃ steps w',
    create_code_quality_steps w = (Returned steps, w') ∧
    length steps = 5 ∧
    CodeBuildStep.id <$> steps =
      ["GitSecrets"; "Linter"; "UnitTests"; "CfnNag"; "DependencyAudit"] ∧
    Forall (fun s => CodeBuildStep.input s = src) steps ∧
    source_stage (self w') = Some src.
Proof.
  intros Hsrc. eexists _, _. split.
  - by apply create_code_quality_steps_run.
  - simpl. repeat split; try done.
    unfold gates. simpl. repeat constructor.
Qed.

Lemma create_code_quality_steps_five_witness :
  ∃ steps w',
    create_code_quality_steps sourced_world = (Returned steps, w') ∧
    length steps = 5 ∧
    CodeBuildStep.id <$> steps =
      ["GitSecrets"; "Linter"; "UnitTests"; "CfnNag"; "DependencyAudit"] ∧
    Forall (fun s => CodeBuildStep.input s = 0) steps ∧
    source_stage (self w') = Some 0.
Proof. apply (create_code_quality_steps_five sourced_world 0). reflexivity. Defined.

(** C9. The five gate steps all refer to one build environment object, the
    only object the call creates, and it is STANDARD_7_0 / SMALL /
    privileged; no gate step refers to any other environment. *)
Theorem gates_share_one_environment (w : world) (src : loc) :
  source_stage (self w) = Some src →
  ∃ steps w' environment,
    create_code_quality_steps w = (Returned steps, w') ∧
    length steps = 5 ∧
    Forall (fun s => CodeBuildStep.build_environment s = environment) steps ∧
    heap w' !! environment =
      Some (OEnvironment {| build_image := STANDARD_7_0;
                            compute_type := SMALL;
                            privileged := true |}) ∧
    environment = next_loc w ∧
    next_loc w' = S (next_loc w).
Proof.
  intros Hsrc. eexists _, _, _. split.
  - by apply create_code_quality_steps_run.
  - simpl. repeat split.
    + unfold gates. simpl. repeat constructor.
    + apply lookup_insert_eq.
Qed.

Lemma gates_share_one_environment_witness :
  ∃ steps w' environment,
    create_code_quality_steps sourced_world = (Returned steps, w') ∧
    length steps = 5 ∧
    Forall (fun s => CodeBuildStep.build_environment s = environment) steps ∧
    heap w' !! environment =
      Some (OEnvironment {| build_image := STANDARD_7_0;
                            compute_type := SMALL;
                            privileged := true |}) ∧
    environment = next_loc sourced_world ∧
    next_loc w' = S (next_loc sourced_world).
Proof. apply (gates_share_one_environment sourced_world 0). reflexivity. Defined.

Lemma gates_tolerance src environment :
  forallb tolerant_iff_linter (gates src environment) = true.
Proof. reflexivity. Qed.

(** C3. Among the steps of a pipeline, the run commands of the step named
    Linter are all exit-code-tolerant, the Linter has such commands, and no
    run command of the synth step or of any other gate step is. *)
Theorem only_the_linter_is_tolerant (w : world) (src : loc) :
  source_stage (self w) = Some src →
  ∃ steps w',
    create_code_quality_steps w = (Returned steps, w') ∧
    (∀ s c, s ∈ steps → c ∈ CodeBuildStep.commands s →
            exit_code_tolerant c = true ↔ CodeBuildStep.id s = "Linter") ∧
    (∃ s, s ∈ steps ∧ CodeBuildStep.id s = "Linter" ∧
          CodeBuildStep.commands s ≠ []) ∧
    (∀ input tag c, c ∈ ShellStep.commands (synth_step input tag) →
                    exit_code_tolerant c = false).
Proof.
  intros Hsrc. eexists _, _. split; [by apply create_code_quality_steps_run|].
  split; [|split].
  - intros s c Hs Hc.
    pose proof (gates_tolerance src (next_loc w)) as Hall.
    rewrite forallb_forall in Hall.
    apply list_elem_of_In, Hall in Hs. unfold tolerant_iff_linter in Hs.
    rewrite forallb_forall in Hs. apply list_elem_of_In, Hs in Hc.
    apply Bool.eqb_prop in Hc. rewrite Hc. apply String.eqb_eq.
  - unfold gates. simpl. eexists. split.
    + apply list_elem_of_further, list_elem_of_here.
    + split; [reflexivity|discriminate].
  - intros input tag c Hc. simpl in Hc.
    apply list_elem_of_singleton in Hc as ->. reflexivity.
Qed.

Lemma only_the_linter_is_tolerant_witness :
  ∃ steps w',
    create_code_quality_steps sourced_world = (Returned steps, w') ∧
    (∀ s c, s ∈ steps → c ∈ CodeBuildStep.commands s →
            exit_code_tolerant c = true ↔ CodeBuildStep.id s = "Linter") ∧
    (∃ s, s ∈ steps ∧ CodeBuildStep.id s = "Linter" ∧
          CodeBuildStep.commands s ≠ []) ∧
    (∀ input tag c, c ∈ ShellStep.commands (synth_step input tag) →
                    exit_code_tolerant c = false).
Proof. apply (only_the_linter_is_tolerant sourced_world 0). reflexivity. Defined.

(** ** The context resolver *)

(** C5. With no [environmentType] in the context the resolver yields the
    tag "qa" and the bundle stored under "qa"; for the context
    [{"qa": {"repository": {"name": "acme/app", "branch": "main"},
    "pipeline": {"name": "acme-qa"}}}] it yields "qa" and that bundle, and
    the run registers one pipeline, named "acme-qa", that runs Synth, the
    five gates and the QA deployment in this order. *)
Theorem absent_override_resolves_to_qa :
  (∀ ctx : gmap string value,
     ctx !! "environmentType" = None →
     resolve_environment_type ctx = VStr "qa" ∧
     resolve_context ctx = Returned (VStr "qa", try_get_context ctx "qa")) ∧
  acme_context !! "environmentType" = None ∧
  resolve_context acme_context = Returned (VStr "qa", acme_bundle) ∧
  (∀ w, ∃ w' p,
     __init__ acme_context w = (Returned tt, w') ∧
     registered_pipelines w' = [p] ∧
     pipeline_name p = VStr "acme-qa" ∧
     label (heap w') <$> schedule p =
       ["Synth"; "GitSecrets"; "Linter"; "UnitTests"; "CfnNag";
        "DependencyAudit"; "QA"]).
Proof.
  split; [|split; [|split]].
  - intros ctx Hnone.
    assert (resolve_environment_type ctx = VStr "qa") as Htag.
    { unfold resolve_environment_type, try_get_context. by rewrite Hnone. }
    split; [done|]. by apply resolve_context_tagged.
  - reflexivity.
  - reflexivity.
  - intros w. eexists _, _. split; [|split; [|split]].
    + by apply (init_run acme_context w (VStr "qa") acme_bundle
                  (VStr "acme/app") (VStr "main") (VStr "acme-qa")).
    + apply built_pipelines.
    + reflexivity.
    + unfold schedule, label, stage_at, built. simpl. heap_lookup. reflexivity.
Qed.

Lemma absent_override_resolves_to_qa_witness :
  resolve_environment_type acme_context = VStr "qa" ∧
  resolve_context acme_context =
    Returned (VStr "qa", try_get_context acme_context "qa").
Proof.
  apply (proj1 absent_override_resolves_to_qa acme_context). reflexivity.
Defined.

(** C10. Whenever the lookup of [environmentType] gives a falsy value (the
    key is absent, or it holds the empty string, [null], [false], zero, an
    empty list or an empty object) the resolver yields the tag "qa". *)
Theorem falsy_override_resolves_to_qa (ctx : gmap string value) :
  truthy (try_get_context ctx "environmentType") = false →
  resolve_environment_type ctx = VStr "qa" ∧
  resolve_context ctx = Returned (VStr "qa", try_get_context ctx "qa").
Proof.
  intros Hfalsy.
  assert (resolve_environment_type ctx = VStr "qa") as Htag.
  { unfold resolve_environment_type, py_or. by rewrite Hfalsy. }
  split; [done|]. by apply resolve_context_tagged.
Qed.

Lemma falsy_override_resolves_to_qa_witness :
  blank_override_context !! "environmentType" = Some (VStr "") ∧
  resolve_environment_type blank_override_context = VStr "qa" ∧
  resolve_context blank_override_context =
    Returned (VStr "qa", try_get_context blank_override_context "qa").
Proof.
  split; [reflexivity|].
  apply (falsy_override_resolves_to_qa blank_override_context). reflexivity.
Defined.




(** C4, as the code has it. When the resolved tag has no bundle in the
    context, the resolver itself returns normally, with [None] for the
    bundle; the run then stops at the first subscript of that [None], while
    the source binding is being built, with the TypeError of that subscript.
    Nothing has been created or registered by then. *)
Theorem missing_bundle_raises_type_error
    (ctx : gmap string value) (w : world) (tag : string) :
  resolve_environment_type ctx = VStr tag →
  ctx !! tag = None →
  resolve_context ctx = Returned (VStr tag, VNone) ∧
  ∃ w',
    __init__ ctx w =
      (Raised (TypeError "'NoneType' object is not subscriptable"), w') ∧
    registered_pipelines w' = [] ∧
    children (self w') = [] ∧
    heap w' = heap w ∧
    next_loc w' = next_loc w.
Proof.
  intros Htag Hnone.
  assert (resolve_context ctx = Returned (VStr tag, VNone)) as Hr.
  { rewrite (resolve_context_tagged _ _ Htag).
    unfold try_get_context. by rewrite Hnone. }
  split; [done|]. eexists. split.
  - by apply (init_raise_source ctx w (VStr tag) VNone).
  - done.
Qed.

Lemma missing_bundle_raises_type_error_witness :
  resolve_context ∅ = Returned (VStr "qa", VNone) ∧
  ∃ w',
    __init__ ∅ empty_world =
      (Raised (TypeError "'NoneType' object is not subscriptable"), w') ∧
    registered_pipelines w' = [] ∧
    children (self w') = [] ∧
    heap w' = heap empty_world ∧
    next_loc w' = next_loc empty_world.
Proof.
  apply (missing_bundle_raises_type_error ∅ empty_world "qa"); reflexivity.
Defined.

(** C4 as stated fails: for the empty context the tag "qa" has no bundle,
    yet the resolver does not reject it, it returns [None] for the bundle;
    what stops the run is the TypeError of subscripting [None] in the next
    statement, not a check of the configuration. *)
Lemma missing_bundle_is_not_validated :
  resolve_environment_type ∅ = VStr "qa" ∧
  (∅ : gmap string value) !! "qa" = None ∧
  resolve_context ∅ = Returned (VStr "qa", VNone) ∧
  subscript VNone "repository" =
    Raised (TypeError "'NoneType' object is not subscriptable") ∧
  fst (__init__ ∅ empty_world) =
    Raised (TypeError "'NoneType' object is not subscriptable").
Proof. repeat split. Qed.

(** ** The assembled pipeline *)

(** C6. In every run that returns, the synth step of the registered
    pipeline takes the source bound to [self.source_stage] as its input,
    maps ENV_TYPE to the resolved tag, installs the tools and resolves the
    account identifier before its one build command, and that command is
    given the account identifier and the tag. *)
Theorem synth_step_contract (ctx : gmap string value) (w w' : world) :
  __init__ ctx w = (Returned tt, w') →
  ∃ tag bundle src binding p build,
    resolve_context ctx = Returned (VStr tag, bundle) ∧
    registered_pipelines w' = [p] ∧
    source_stage (self w') = Some src ∧
    heap w' !! src = Some (OSource binding) ∧
    ShellStep.id (synth p) = "Synth" ∧
    ShellStep.input (synth p) = src ∧
    ShellStep.env (synth p) !! "ENV_TYPE" = Some (VStr tag) ∧
    ShellStep.install_commands (synth p) =
      [ "npm install -g aws-cdk";
        "pip3 install -r requirements.txt";
        "pip3 install -r requirements-dev.txt";
        "ACCOUNT=$(aws sts get-caller-identity | jq -r .Account)" ] ∧
    ShellStep.commands (synth p) = [build] ∧
    script (synth p) = ShellStep.install_commands (synth p) ++ [build] ∧
    build = "cdk synth -c account=$ACCOUNT -c environmentType=$ENV_TYPE" ∧
    contains "account=$ACCOUNT" build = true ∧
    contains "environmentType=$ENV_TYPE" build = true.
Proof.
  intros Hrun.
  destruct (init_returned _ _ _ Hrun)
    as (tag & bundle & name & branch & pname & Hr & _ & _ & ->).
  exists tag, bundle, (next_loc w). eexists _, _, _.
  split; [exact Hr|]. split; [apply built_pipelines|].
  split; [reflexivity|]. split; [apply built_source_at|].
  repeat split.
Qed.

Lemma synth_step_contract_witness :
  ∃ tag bundle src binding p build,
    resolve_context acme_context = Returned (VStr tag, bundle) ∧
    registered_pipelines (snd (__init__ acme_context empty_world)) = [p] ∧
    source_stage (self (snd (__init__ acme_context empty_world))) = Some src ∧
    heap (snd (__init__ acme_context empty_world)) !! src =
      Some (OSource binding) ∧
    ShellStep.id (synth p) = "Synth" ∧
    ShellStep.input (synth p) = src ∧
    ShellStep.env (synth p) !! "ENV_TYPE" = Some (VStr tag) ∧
    ShellStep.install_commands (synth p) =
      [ "npm install -g aws-cdk";
        "pip3 install -r requirements.txt";
        "pip3 install -r requirements-dev.txt";
        "ACCOUNT=$(aws sts get-caller-identity | jq -r .Account)" ] ∧
    ShellStep.commands (synth p) = [build] ∧
    script (synth p) = ShellStep.install_commands (synth p) ++ [build] ∧
    build = "cdk synth -c account=$ACCOUNT -c environmentType=$ENV_TYPE" ∧
    contains "account=$ACCOUNT" build = true ∧
    contains "environmentType=$ENV_TYPE" build = true.
Proof.
  apply (synth_step_contract acme_context empty_world). reflexivity.
Defined.

(** C1, as the code has it. In every run that returns, one pipeline is
    registered; it runs its one synth step first, then the five gate steps,
    then its one deployment stage. That stage is built with the id "QA" and
    the environment type "qa", whatever tag was resolved: it equals the
    resolved tag only when that tag is "qa". *)
Theorem pipeline_shape (ctx : gmap string value) (w w' : world) :
  __init__ ctx w = (Returned tt, w') →
  ∃ tag bundle p l pre stage,
    resolve_context ctx = Returned (VStr tag, bundle) ∧
    registered_pipelines w' = [p] ∧
    registered_stages w' = [stage] ∧
    stages p = [(l, pre)] ∧
    stage_at (heap w') l = Some stage ∧
    ShellStep.id (synth p) = "Synth" ∧
    CodeBuildStep.id <$> pre =
      ["GitSecrets"; "Linter"; "UnitTests"; "CfnNag"; "DependencyAudit"] ∧
    schedule p = RunSynth (synth p) :: (RunGate <$> pre) ++ [Deploy l] ∧
    stage = {| construct_id := "QA"; environment_type := "qa" |} ∧
    (environment_type stage = tag ↔ tag = "qa").
Proof.
  intros Hrun.
  destruct (init_returned _ _ _ Hrun)
    as (tag & bundle & name & branch & pname & Hr & _ & _ & ->).
  exists tag, bundle. eexists _, _, _, _.
  split; [exact Hr|]. split; [apply built_pipelines|].
  split; [apply built_stages|]. split; [reflexivity|].
  split; [apply built_stage_at|].
  repeat split; simpl; congruence.
Qed.

Lemma pipeline_shape_witness :
  ∃ tag bundle p l pre stage,
    resolve_context prod_context = Returned (VStr tag, bundle) ∧
    registered_pipelines (snd (__init__ prod_context empty_world)) = [p] ∧
    registered_stages (snd (__init__ prod_context empty_world)) = [stage] ∧
    stages p = [(l, pre)] ∧
    stage_at (heap (snd (__init__ prod_context empty_world))) l = Some stage ∧
    ShellStep.id (synth p) = "Synth" ∧
    CodeBuildStep.id <$> pre =
      ["GitSecrets"; "Linter"; "UnitTests"; "CfnNag"; "DependencyAudit"] ∧
    schedule p = RunSynth (synth p) :: (RunGate <$> pre) ++ [Deploy l] ∧
    stage = {| construct_id := "QA"; environment_type := "qa" |} ∧
    (environment_type stage = tag ↔ tag = "qa").
Proof.
  apply (pipeline_shape prod_context empty_world). reflexivity.
Defined.

(** C1 as stated fails: with [environmentType] set to "prod" and a bundle
    stored under "prod", the run returns, the resolved tag is "prod", and
    the one deployment stage has the environment type "qa". *)
Lemma deploy_stage_ignores_resolved_tag :
  resolve_context prod_context = Returned (VStr "prod", prod_bundle) ∧
  fst (__init__ prod_context empty_world) = Returned tt ∧
  registered_stages (snd (__init__ prod_context empty_world)) =
    [ {| construct_id := "QA"; environment_type := "qa" |} ] ∧
  environment_type {| construct_id := "QA"; environment_type := "qa" |} ≠ "prod".
Proof. repeat split. discriminate. Qed.

(** ** Purity *)

Section Purity.

Variables w1 w2 : world.

Lemma view_unresolved : View.of_world (unresolved w1) = View.of_world (unresolved w2).
Proof. reflexivity. Qed.

Lemma view_unbound bundle :
  View.of_world (unbound w1 bundle) = View.of_world (unbound w2 bundle).
Proof. reflexivity. Qed.

Lemma view_bound bundle name branch :
  View.of_world (bound w1 bundle name branch) =
  View.of_world (bound w2 bundle name branch).
Proof.
  unfold View.of_world, bound, source_at. simpl. heap_lookup. reflexivity.
Qed.

(** Any world that holds the four objects of a finished run where [self]
    points has the structure of the run from the empty world. *)
Lemma view_canonical (h : gmap loc object) (n m : loc) tag bundle name branch pname :
  h !! n = Some (OSource (git_hub name branch (secrets_manager "github-token"))) →
  h !! (S n) = Some (OPipeline {| pipeline_name := pname;
                                    synth := synth_step n tag;
                                    stages := [(S (S (S n)), gates n (S (S n)))] |}) →
  h !! (S (S n)) = Some (OEnvironment the_environment) →
  h !! (S (S (S n))) = Some (OStage {| construct_id := "QA"; environment_type := "qa" |}) →
  View.of_world
    {| next_loc := m;
       heap := h;
       self := {| context := Some bundle;
                  source_stage := Some n;
                  children := [("Pipeline", S n); ("QA", S (S (S n)))] |} |} =
  View.of_world (built empty_world tag bundle name branch pname).
Proof.
  intros H0 H1 H2 H3.
  unfold View.of_world, View.of_construct, source_at. simpl.
  rewrite H0, H1, H3.
  unfold View.of_pipeline, View.of_shell_step, View.of_code_build_step,
    source_at, environment_at, stage_at, gates. simpl.
  rewrite H0, H2, H3. reflexivity.
Qed.

Lemma view_built_canonical (w : world) tag bundle name branch pname :
  View.of_world (built w tag bundle name branch pname) =
  View.of_world (built empty_world tag bundle name branch pname).
Proof.
  apply view_canonical; unfold built; simpl; heap_lookup; reflexivity.
Qed.

Lemma view_built tag bundle name branch pname :
  View.of_world (built w1 tag bundle name branch pname) =
  View.of_world (built w2 tag bundle name branch pname).
Proof. by rewrite (view_built_canonical w1), (view_built_canonical w2). Qed.

End Purity.

(** C7. Two runs of [__init__] on the same context, from any two worlds,
    end the same way (both return, or both raise the same exception) and
    leave structurally equal stacks: the same settings, source, pipeline
    name, steps in the same order with the same commands, inputs and build
    environments, and the same deployment stage. Only the identities of the
    objects may differ. *)
Theorem assembly_depends_on_context_only
    (ctx : gmap string value) (w1 w2 : world) :
  fst (__init__ ctx w1) = fst (__init__ ctx w2) ∧
  View.of_world (snd (__init__ ctx w1)) = View.of_world (snd (__init__ ctx w2)).
Proof.
  destruct (resolve_context ctx) as [[tag bundle]|e] eqn:Hr.
  - destruct (source_settings bundle) as [[name branch]|e] eqn:Hs.
    + destruct (pipeline_settings bundle) as [pname|e] eqn:Hp.
      * rewrite !(init_run ctx _ _ _ _ _ _ Hr Hs Hp). simpl.
        split; [reflexivity|apply view_built].
      * rewrite !(init_raise_pipeline ctx _ _ _ _ _ _ Hr Hs Hp). simpl.
        split; [reflexivity|apply view_bound].
    + rewrite !(init_raise_source ctx _ _ _ _ Hr Hs). simpl.
      split; [reflexivity|apply view_unbound].
  - rewrite !(init_raise_resolve ctx _ _ Hr). simpl.
    split; [reflexivity|apply view_unresolved].
Qed.

(** * Further properties of the two methods *)

(** ** Subscripts *)

Lemma subscript_returned (v : value) (k : string) (x : value) :
  subscript v k = Returned x ↔ ∃ d, v = VDict d ∧ d !! k = Some x.
Proof.
  split.
  - destruct v as [| | | | | |d]; simpl; try discriminate.
    destruct (d !! k) eqn:Hk; [|discriminate]. intros [= ->]. eauto.
  - intros (d & -> & Hk). simpl. by rewrite Hk.
Qed.





Lemma source_settings_returned (bundle name branch : value) :
  source_settings bundle = Returned (name, branch) ↔
  ∃ d r, bundle = VDict d ∧ d !! "repository" = Some (VDict r) ∧
         r !! "name" = Some name ∧ r !! "branch" = Some branch.
Proof.
  unfold source_settings. split.
  - destruct (subscript bundle "repository") as [rv|] eqn:H1; [|discriminate].
    destruct (subscript rv "name") as [n|] eqn:H2; [|discriminate].
    destruct (subscript rv "branch") as [b|] eqn:H3; [|discriminate].
    intros [= -> ->].
    apply subscript_returned in H1 as (d & -> & Hd).
    apply subscript_returned in H2 as (r & -> & Hn).
    apply subscript_returned in H3 as (r' & [= <-] & Hb). eauto 10.
  - intros (d & r & -> & Hd & Hn & Hb). simpl. rewrite Hd. simpl.
    by rewrite Hn, Hb.
Qed.

Lemma pipeline_settings_returned (bundle pname : value) :
  pipeline_settings bundle = Returned pname ↔
  ∃ d p, bundle = VDict d ∧ d !! "pipeline" = Some (VDict p) ∧
         p !! "name" = Some pname.
Proof.
  unfold pipeline_settings. split.
  - destruct (subscript bundle "pipeline") as [pv|] eqn:H1; [|discriminate].
    intros H2.
    apply subscript_returned in H1 as (d & -> & Hd).
    apply subscript_returned in H2 as (p & -> & Hp). eauto 10.
  - intros (d & p & -> & Hd & Hp). simpl. rewrite Hd. simpl. by rewrite Hp.
Qed.


Lemma create_code_quality_steps_unbound (w : world) :
  source_stage (self w) = None →
  create_code_quality_steps w =
    (Raised (AttributeError "source_stage"),
     {| next_loc := S (next_loc w);
        heap := <[next_loc w := OEnvironment the_environment]> (heap w);
        self := self w |}).
Proof.
  intros Hsrc. unfold create_code_quality_steps. unfold_run. simpl.
  by rewrite Hsrc.
Qed.

(** ** How a run fails *)



(** X2. When the bundle of the resolved tag is a dict without
    "repository", the run raises KeyError "repository" whatever else the
    bundle holds, before any object is created: the heap and the allocator
    are as before and [self.source_stage] is not assigned, while
    [self.context] already holds the bundle. *)
Theorem missing_repository_raises_key_error
    (ctx : gmap string value) (w : world) (tag : string)
    (d : gmap string value) :
  resolve_environment_type ctx = VStr tag →
  ctx !! tag = Some (VDict d) →
  d !! "repository" = None →
  ∃ w',
    __init__ ctx w = (Raised (KeyError "repository"), w') ∧
    heap w' = heap w ∧
    next_loc w' = next_loc w ∧
    source_stage (self w') = None ∧
    context (self w') = Some (VDict d).
Proof.
  intros Htag Hbundle Hrepo.
  assert (resolve_context ctx = Returned (VStr tag, VDict d)) as Hr.
  { rewrite (resolve_context_tagged _ _ Htag).
    unfold try_get_context. by rewrite Hbundle. }
  eexists. split.
  - apply (init_raise_source ctx w _ _ _ Hr).
    unfold source_settings. simpl. by rewrite Hrepo.
  - done.
Qed.

Lemma missing_repository_raises_key_error_witness :
  ∃ w',
    __init__ bare_context sourced_world = (Raised (KeyError "repository"), w') ∧
    heap w' = heap sourced_world ∧
    next_loc w' = next_loc sourced_world ∧
    source_stage (self w') = None ∧
    context (self w') = Some (VDict ∅).
Proof.
  apply (missing_repository_raises_key_error bare_context sourced_world "qa" ∅);
    reflexivity.
Defined.

(** X3. The repository settings are read in the order name, branch: when
    the "repository" dict lacks "name" the run raises KeyError "name"
    whether or not "branch" is there, and when it has "name" but lacks
    "branch" it raises KeyError "branch"; in both cases no object has been
    created. *)
Theorem incomplete_repository_raises_key_error
    (ctx : gmap string value) (w : world) (tag : string)
    (d r : gmap string value) :
  resolve_environment_type ctx = VStr tag →
  ctx !! tag = Some (VDict d) →
  d !! "repository" = Some (VDict r) →
  r !! "name" = None ∨ r !! "branch" = None →
  ∃ w',
    __init__ ctx w =
      (Raised (KeyError (match r !! "name" with
                         | Some _ => "branch"
                         | None => "name"
                         end)), w') ∧
    heap w' = heap w ∧
    next_loc w' = next_loc w ∧
    source_stage (self w') = None.
Proof.
  intros Htag Hbundle Hrepo Hmiss.
  assert (resolve_context ctx = Returned (VStr tag, VDict d)) as Hr.
  { rewrite (resolve_context_tagged _ _ Htag).
    unfold try_get_context. by rewrite Hbundle. }
  eexists. split.
  - apply (init_raise_source ctx w _ _ _ Hr).
    unfold source_settings. simpl. rewrite Hrepo. simpl.
    destruct (r !! "name") as [name|] eqn:Hname; [|done].
    destruct Hmiss as [?|Hbranch]; [done|]. by rewrite Hbranch.
  - done.
Qed.

Lemma incomplete_repository_raises_key_error_witness :
  ∃ w',
    __init__ nameless_context sourced_world = (Raised (KeyError "name"), w') ∧
    heap w' = heap sourced_world ∧
    next_loc w' = next_loc sourced_world ∧
    source_stage (self w') = None.
Proof.
  exact (incomplete_repository_raises_key_error nameless_context sourced_world
           "qa" {[ "repository" := VDict {[ "branch" := VStr "main" ]} ]}
           {[ "branch" := VStr "main" ]}
           eq_refl eq_refl eq_refl (or_introl eq_refl)).
Defined.



(** ** What a run reads from the context *)



(** X6. A non-empty string under "environmentType" is the resolved tag: the
    bundle is the one stored under that string, and the bundle under "qa"
    is not used in its place, also when the override has no bundle. *)
Theorem override_selects_its_own_bundle
    (ctx : gmap string value) (tag : string) :
  ctx !! "environmentType" = Some (VStr tag) →
  tag ≠ "" →
  resolve_environment_type ctx = VStr tag ∧
  resolve_context ctx = Returned (VStr tag, try_get_context ctx tag).
Proof.
  intros Hoverride Hne.
  assert (resolve_environment_type ctx = VStr tag) as Htag.
  { unfold resolve_environment_type, try_get_context, py_or.
    rewrite Hoverride. simpl.
    destruct (String.eqb_spec tag ""); [done|reflexivity]. }
  split; [done|]. by apply resolve_context_tagged.
Qed.

Lemma override_selects_its_own_bundle_witness :
  resolve_environment_type prod_context = VStr "prod" ∧
  resolve_context prod_context =
    Returned (VStr "prod", try_get_context prod_context "prod").
Proof.
  apply (override_selects_its_own_bundle prod_context "prod");
    [reflexivity|discriminate].
Defined.



(** X8. In every run that returns, what was built comes from the resolved
    bundle: [self.context] is that bundle, [self.source_stage] refers to
    the GitHub source made of the bundle's repository name and branch and
    the "github-token" secret, and the pipeline is named by the bundle's
    pipeline name. *)
Theorem built_from_the_resolved_bundle
    (ctx : gmap string value) (w w' : world) :
  __init__ ctx w = (Returned tt, w') →
  ∃ tag bundle name branch pname src p,
    resolve_context ctx = Returned (VStr tag, bundle) ∧
    context (self w') = Some bundle ∧
    at_path bundle ["repository"; "name"] = Returned name ∧
    at_path bundle ["repository"; "branch"] = Returned branch ∧
    at_path bundle ["pipeline"; "name"] = Returned pname ∧
    source_stage (self w') = Some src ∧
    heap w' !! src =
      Some (OSource (git_hub name branch (secrets_manager "github-token"))) ∧
    registered_pipelines w' = [p] ∧
    pipeline_name p = pname.
Proof.
  intros Hrun.
  destruct (init_returned _ _ _ Hrun)
    as (tag & bundle & name & branch & pname & Hr & Hs & Hp & ->).
  exists tag, bundle, name, branch, pname, (next_loc w). eexists.
  split; [exact Hr|]. split; [reflexivity|].
  apply source_settings_returned in Hs as (d & r & -> & Hd & Hn & Hbr).
  apply pipeline_settings_returned in Hp as (d' & p & [= <-] & Hpd & Hpn).
  split; [unfold at_path; simpl; rewrite Hd; simpl; by rewrite Hn|].
  split; [unfold at_path; simpl; rewrite Hd; simpl; by rewrite Hbr|].
  split; [unfold at_path; simpl; rewrite Hpd; simpl; by rewrite Hpn|].
  split; [reflexivity|]. split; [apply built_source_at|].
  split; [apply built_pipelines|reflexivity].
Qed.

Lemma built_from_the_resolved_bundle_witness :
  ∃ tag bundle name branch pname src p,
    resolve_context prod_context = Returned (VStr tag, bundle) ∧
    context (self (snd (__init__ prod_context empty_world))) = Some bundle ∧
    at_path bundle ["repository"; "name"] = Returned name ∧
    at_path bundle ["repository"; "branch"] = Returned branch ∧
    at_path bundle ["pipeline"; "name"] = Returned pname ∧
    source_stage (self (snd (__init__ prod_context empty_world))) = Some src ∧
    heap (snd (__init__ prod_context empty_world)) !! src =
      Some (OSource (git_hub name branch (secrets_manager "github-token"))) ∧
    registered_pipelines (snd (__init__ prod_context empty_world)) = [p] ∧
    pipeline_name p = pname.
Proof.
  apply (built_from_the_resolved_bundle prod_context empty_world). reflexivity.
Defined.

(** ** Objects and their identities *)

(** X9. In every run that returns, the synth step and the five gate steps
    of the registered pipeline all take the one source object that
    [self.source_stage] refers to, the gate steps all use one build
    environment object, and the source, the pipeline, the environment and
    the deployment stage are four different objects. *)
Theorem assembled_steps_share_source_and_environment
    (ctx : gmap string value) (w w' : world) :
  __init__ ctx w = (Returned tt, w') →
  ∃ p pl l pre src environment,
    children (self w') = [("Pipeline", pl); ("QA", l)] ∧
    pipeline_at (heap w') pl = Some p ∧
    stages p = [(l, pre)] ∧
    length pre = 5 ∧
    source_stage (self w') = Some src ∧
    ShellStep.input (synth p) = src ∧
    Forall (fun s => CodeBuildStep.input s = src ∧
                     CodeBuildStep.build_environment s = environment) pre ∧
    is_Some (source_at (heap w') src) ∧
    environment_at (heap w') environment =
      Some {| build_image := STANDARD_7_0;
              compute_type := SMALL;
              privileged := true |} ∧
    is_Some (stage_at (heap w') l) ∧
    NoDup [src; pl; environment; l].
Proof.
  intros Hrun.
  destruct (init_returned _ _ _ Hrun)
    as (tag & bundle & name & branch & pname & _ & _ & _ & ->).
  eexists _, _, _, _, _, (2 + next_loc w).
  split; [reflexivity|].
  split; [unfold pipeline_at, built; simpl; heap_lookup; reflexivity|].
  split; [reflexivity|]. split; [reflexivity|]. split; [reflexivity|].
  split; [reflexivity|].
  split; [unfold gates; simpl; repeat constructor|].
  split; [unfold source_at; rewrite built_source_at; by eexists|].
  split; [unfold environment_at; by rewrite built_environment_at|].
  split; [rewrite built_stage_at; by eexists|].
  repeat (apply NoDup_cons; split; [set_unfold; lia|]). apply NoDup_nil_2.
Qed.

Lemma assembled_steps_share_source_and_environment_witness :
  ∃ p pl l pre src environment,
    children (self (snd (__init__ acme_context sourced_world))) =
      [("Pipeline", pl); ("QA", l)] ∧
    pipeline_at (heap (snd (__init__ acme_context sourced_world))) pl = Some p ∧
    stages p = [(l, pre)] ∧
    length pre = 5 ∧
    source_stage (self (snd (__init__ acme_context sourced_world))) = Some src ∧
    ShellStep.input (synth p) = src ∧
    Forall (fun s => CodeBuildStep.input s = src ∧
                     CodeBuildStep.build_environment s = environment) pre ∧
    is_Some (source_at (heap (snd (__init__ acme_context sourced_world))) src) ∧
    environment_at (heap (snd (__init__ acme_context sourced_world))) environment =
      Some {| build_image := STANDARD_7_0;
              compute_type := SMALL;
              privileged := true |} ∧
    is_Some (stage_at (heap (snd (__init__ acme_context sourced_world))) l) ∧
    NoDup [src; pl; environment; l].
Proof.
  apply (assembled_steps_share_source_and_environment acme_context sourced_world).
  reflexivity.
Defined.





(** X12. Two calls of [create_code_quality_steps] in a row give steps that
    are structurally the same, with the same source as input, but every
    step of the second call uses a build environment object different from
    the one the steps of the first call use: the environment is shared
    within a call and not across calls. *)
Theorem each_call_creates_its_own_environment
    (w w1 w2 : world) (steps1 steps2 : list CodeBuildStep.t) :
  create_code_quality_steps w = (Returned steps1, w1) →
  create_code_quality_steps w1 = (Returned steps2, w2) →
  View.of_code_build_step (heap w2) <$> steps1 =
    View.of_code_build_step (heap w2) <$> steps2 ∧
  CodeBuildStep.input <$> steps1 = CodeBuildStep.input <$> steps2 ∧
  ∀ s1 s2, s1 ∈ steps1 → s2 ∈ steps2 →
           CodeBuildStep.build_environment s1 ≠ CodeBuildStep.build_environment s2.
Proof.
  intros H1 H2.
  destruct (source_stage (self w)) as [src|] eqn:Hsrc;
    [|by rewrite (create_code_quality_steps_unbound w Hsrc) in H1].
  rewrite (create_code_quality_steps_run w src Hsrc) in H1.
  injection H1 as <- Hw1.
  assert (source_stage (self w1) = Some src) as Hsrc1 by (by subst w1).
  rewrite (create_code_quality_steps_run w1 src Hsrc1) in H2.
  injection H2 as <- <-. subst w1. simpl.
  split; [|split].
  - unfold gates, View.of_code_build_step, source_at, environment_at. simpl.
    rewrite (lookup_insert_ne _ (S (next_loc w)) (next_loc w)) by lia.
    rewrite !lookup_insert_eq. reflexivity.
  - reflexivity.
  - intros s1 s2 Hs1 Hs2.
    assert (CodeBuildStep.build_environment s1 = next_loc w) as ->.
    { revert s1 Hs1. apply Forall_forall. unfold gates. simpl.
      repeat constructor. }
    assert (CodeBuildStep.build_environment s2 = S (next_loc w)) as ->.
    { revert s2 Hs2. apply Forall_forall. unfold gates. simpl.
      repeat constructor. }
    lia.
Qed.

Lemma each_call_creates_its_own_environment_witness :
  ∃ (steps1 steps2 : list CodeBuildStep.t) (w2 : world),
    View.of_code_build_step (heap w2) <$> steps1 =
      View.of_code_build_step (heap w2) <$> steps2 ∧
    CodeBuildStep.input <$> steps1 = CodeBuildStep.input <$> steps2 ∧
    ∀ s1 s2, s1 ∈ steps1 → s2 ∈ steps2 →
             CodeBuildStep.build_environment s1 ≠
             CodeBuildStep.build_environment s2.
Proof.
  exists (gates 0 1), (gates 0 2).
  exists (snd (create_code_quality_steps
                 (snd (create_code_quality_steps sourced_world)))).
  apply (each_call_creates_its_own_environment sourced_world
           (snd (create_code_quality_steps sourced_world)));
    reflexivity.
Defined.

(** ** The commands and names of the gates *)

(** X13. The Linter, UnitTests and DependencyAudit steps get the same six
    install commands; the CfnNag step gets these six followed by
    "gem install cfn-nag", and that addition does not reach
    DependencyAudit, which is built after it from the same list. *)
Theorem gates_install_commands (w : world) (src : loc) :
  source_stage (self w) = Some src →
  ∃ secrets linter tests nag audit w',
    create_code_quality_steps w =
      (Returned [secrets; linter; tests; nag; audit], w') ∧
    CodeBuildStep.install_commands linter = CodeBuildStep.install_commands tests ∧
    CodeBuildStep.install_commands audit = CodeBuildStep.install_commands tests ∧
    CodeBuildStep.install_commands nag =
      CodeBuildStep.install_commands tests ++ ["gem install cfn-nag"] ∧
    length (CodeBuildStep.install_commands audit) = 6 ∧
    "gem install cfn-nag" ∉ CodeBuildStep.install_commands audit.
Proof.
  intros Hsrc. eexists _, _, _, _, _, _. split.
  - rewrite (create_code_quality_steps_run w src Hsrc). unfold gates. simpl.
    reflexivity.
  - simpl. repeat split. apply (bool_decide_unpack _). reflexivity.
Qed.

Lemma gates_install_commands_witness :
  ∃ secrets linter tests nag audit w',
    create_code_quality_steps sourced_world =
      (Returned [secrets; linter; tests; nag; audit], w') ∧
    CodeBuildStep.install_commands linter = CodeBuildStep.install_commands tests ∧
    CodeBuildStep.install_commands audit = CodeBuildStep.install_commands tests ∧
    CodeBuildStep.install_commands nag =
      CodeBuildStep.install_commands tests ++ ["gem install cfn-nag"] ∧
    length (CodeBuildStep.install_commands audit) = 6 ∧
    "gem install cfn-nag" ∉ CodeBuildStep.install_commands audit.
Proof. apply (gates_install_commands sourced_world 0). reflexivity. Defined.

(** X14. The steps of one call have pairwise different ids and pairwise
    different CodeBuild project names, and none of them is called "Synth",
    the id of the synth step. *)
Theorem gate_names_are_distinct (w : world) (src : loc) :
  source_stage (self w) = Some src →
  ∃ steps w',
    create_code_quality_steps w = (Returned steps, w') ∧
    NoDup (CodeBuildStep.id <$> steps) ∧
    NoDup (CodeBuildStep.project_name <$> steps) ∧
    (∀ input tag, ShellStep.id (synth_step input tag) ∉ CodeBuildStep.id <$> steps).
Proof.
  intros Hsrc. eexists _, _. split.
  - by apply create_code_quality_steps_run.
  - unfold gates. simpl. repeat split.
    + apply (bool_decide_unpack _). reflexivity.
    + apply (bool_decide_unpack _). reflexivity.
    + intros _ _. apply (bool_decide_unpack _). reflexivity.
Qed.

Lemma gate_names_are_distinct_witness :
  ∃ steps w',
    create_code_quality_steps sourced_world = (Returned steps, w') ∧
    NoDup (CodeBuildStep.id <$> steps) ∧
    NoDup (CodeBuildStep.project_name <$> steps) ∧
    (∀ input tag, ShellStep.id (synth_step input tag) ∉ CodeBuildStep.id <$> steps).
Proof. apply (gate_names_are_distinct sourced_world 0). reflexivity. Defined.
